(** * A shallow embedding of the VM provisioning service

    The repository is a small HTTP service: [sdk/client.py] is a mock
    provisioning client, [sdk/exceptions.py] its exception classes,
    [sdk/models.py] the [VirtualMachine] object it returns and [main.py] the
    HTTP layer with its single table.

    Python exceptions are values of [exn]; a call either returns or raises
    ([result]).  Mutable objects (the client, the table) are threaded
    explicitly.  Sources of non-determinism ([random.randint], [uuid4],
    [datetime.utcnow], a failing database) are inputs of the model, and
    what the code takes from libraries whose code is not in the repository
    (the validation of addresses, the tokens, the texts of exceptions) is a
    parameter of it ([Pydantic], [Platform]). *)

From stdpp Require Import gmap strings list fin_maps pretty.
From Stdlib Require Import ZArith Lia.

Local Open Scope string_scope.

(** ** sdk/exceptions.py and the exceptions of the libraries *)

(** [ClientException] derives from [BaseException]; [AuthenticationError]
    and [NoResourcesAvailableError] derive from [ClientException].
    [HTTPException] (FastAPI), [SQLAlchemyError] (the persistence layer)
    and [ValidationError] (pydantic) derive from [Exception]. *)
Inductive exn : Type :=
| AuthenticationError (msg : string)
| NoResourcesAvailableError (msg : string)
| HTTPException (status_code : Z) (detail : string)
| SQLAlchemyError (msg : string)
| ValidationError (msg : string).

(** [isinstance(e, ClientException)] *)
Definition isinstance_ClientException (e : exn) : bool :=
  match e with
  | AuthenticationError _ | NoResourcesAvailableError _ => true
  | HTTPException _ _ | SQLAlchemyError _ | ValidationError _ => false
  end.

(** [isinstance(e, Exception)]: what an [except Exception] clause catches.
    The two client exceptions are [BaseException]s that are not
    [Exception]s. *)
Definition isinstance_Exception (e : exn) : bool :=
  match e with
  | AuthenticationError _ | NoResourcesAvailableError _ => false
  | HTTPException _ _ | SQLAlchemyError _ | ValidationError _ => true
  end.

(** The outcome of a Python call. *)
Inductive result (A : Type) : Type :=
| Return (a : A)
| Raise (e : exn).
Arguments Return {A} a.
Arguments Raise {A} e.

(** Truthiness of a [str | None] value: [None] and the empty string are
    falsy. *)
Definition truthy (s : option string) : bool :=
  match s with
  | None => false
  | Some s => negb (String.eqb s "")
  end.

(** [labels or []] on a [list[str] | None] value. *)
Definition or_empty (labels : option (list string)) : list string :=
  match labels with
  | Some (x :: l) => x :: l
  | Some [] | None => []
  end.

(** ** sdk/models.py *)

(** What the models take from pydantic, whose code is not part of the
    repository: the type [IPvAnyAddress] of validated addresses, the text
    [str(a)] of an address, and the validation of a text as an address,
    which gives the address or fails.  The text of an address is in
    canonical form and validates to the address.  An address object is
    always truthy. *)
Class Pydantic : Type := {
  IPvAnyAddress : Type;
  (** [str(a)] *)
  ip_str : IPvAnyAddress -> string;
  (** the validation of a field of type [IPvAnyAddress]; [None] stands for
      a failed validation *)
  IPvAnyAddress_validate : string -> option IPvAnyAddress;
  (** [str(e)] of the [ValidationError] raised for this text *)
  ValidationError_str : string -> string;
  IPvAnyAddress_validate_str :
    forall a, IPvAnyAddress_validate (ip_str a) = Some a
}.

Module VirtualMachine.

Section Model.
Context {Py : Pydantic}.

Record t : Type := {
  id : string;
  name : string;
  cpu_cores : Z;
  memory : Z;
  disk_size : Z;
  public_ip : option IPvAnyAddress;
  labels : list string
}.

(** [VirtualMachine(id=..., ..., public_ip=..., labels=...)]: the
    constructor of the model validates [public_ip], given as a text or
    [None], and raises [ValidationError] when the text is not an address. *)
Definition new (id name : string) (cpu_cores memory disk_size : Z)
    (public_ip : option string) (labels : list string) : result t :=
  match public_ip with
  | None =>
      Return {| id := id; name := name; cpu_cores := cpu_cores;
                memory := memory; disk_size := disk_size;
                public_ip := None; labels := labels |}
  | Some text =>
      match IPvAnyAddress_validate text with
      | Some address =>
          Return {| id := id; name := name; cpu_cores := cpu_cores;
                    memory := memory; disk_size := disk_size;
                    public_ip := Some address; labels := labels |}
      | None => Raise (ValidationError (ValidationError_str text))
      end
  end.

End Model.

End VirtualMachine.

(** ** sdk/client.py *)

Module sdk.

Section Client.
Context {Py : Pydantic}.

Record Client : Type := {
  api_key : option string;
  authenticated : bool
}.

(** [Client(api_key=...)]: the class attribute [authenticated = False] is
    what a new instance reads. *)
Definition init (api_key : option string) : Client :=
  {| api_key := api_key; authenticated := false |}.

(** A method returns its outcome and the client afterwards. *)
Definition method (A : Type) : Type := Client -> result A * Client.

Definition authenticate : method bool := fun self =>
  if negb (truthy (api_key self)) then
    (Raise (AuthenticationError "Invalid API key"), self)
  else
    let self := {| api_key := api_key self; authenticated := true |} in
    (Return (authenticated self), self).

(** [randint] is the value of [random.randint(1, 100)] and [uuid4] the
    text of the [uuid4()] drawn by this call. *)
Definition create_vm (name : string) (cpu_cores memory disk_size : Z)
    (public_ip : option string) (labels : option (list string))
    (randint : Z) (uuid4 : string) : method VirtualMachine.t := fun self =>
  if negb (authenticated self) then
    (Raise (AuthenticationError "Not authenticated"), self)
  else if (randint =? 1)%Z then
    (Raise (NoResourcesAvailableError
              "No resources available to create a new virtual machine"), self)
  else
    let vm_id := uuid4 in
    (VirtualMachine.new vm_id name cpu_cores memory disk_size public_ip
       (or_empty labels), self).

Definition delete_vm (vm_id : string) : method bool := fun self =>
  if negb (authenticated self) then
    (Raise (AuthenticationError "Not authenticated"), self)
  else
    (Return true, self).

(** The outcomes of [random.randint(1, 100)]. *)
Definition draws : list Z := seqZ 1 100.

(** The three operations of a client, for sequences of calls. *)
Inductive op : Type :=
| Authenticate
| CreateVm (name : string) (cpu_cores memory disk_size : Z)
           (public_ip : option string) (labels : option (list string))
           (randint : Z) (uuid4 : string)
| DeleteVm (vm_id : string).

Definition run (o : op) (self : Client) : Client :=
  match o with
  | Authenticate => snd (authenticate self)
  | CreateVm n c m d ip ls r u => snd (create_vm n c m d ip ls r u self)
  | DeleteVm vm_id => snd (delete_vm vm_id self)
  end.

Definition run_all (os : list op) (self : Client) : Client :=
  foldl (fun c o => run o c) self os.

End Client.

End sdk.


(** ** main.py: the data model *)

(** A row of the table [vms].  The columns are those of the ORM class:
    there is no column for labels.  [created_at] and [updated_at] are filled
    by their column defaults when the row is inserted. *)
Module VM.
Record t : Type := {
  id : string;
  name : string;
  cpu_cores : Z;
  memory : Z;
  disk_size : Z;
  public_ip : option string;
  status : string;
  created_at : Z;
  updated_at : Z
}.
End VM.

Module VMCreateRequest.

Section Model.
Context {Py : Pydantic}.

Record t : Type := {
  name : string;
  cpu_cores : Z;
  memory : Z;
  disk_size : Z;
  public_ip : option IPvAnyAddress;
  labels : option (list string)
}.

End Model.

End VMCreateRequest.

Module VMResponse.
Record t : Type := {
  id : string;
  name : string;
  cpu_cores : Z;
  memory : Z;
  disk_size : Z;
  public_ip : option string;
  labels : list string;
  status : string;
  created_at : Z;
  updated_at : Z
}.
End VMResponse.

(** What one request reads from outside the program: the draw of
    [random.randint(1, 100)], the [uuid4()], the two readings of
    [datetime.utcnow] behind the column defaults, and whether the
    persistence layer raises, with the text of its exception, when the
    session reads ([query_error]) or commits ([commit_error]). *)
Record oracle : Type := {
  randint : Z;
  uuid4 : string;
  utcnow_created : Z;
  utcnow_updated : Z;
  query_error : option string;
  commit_error : option string
}.

(** What the service takes from its environment and from libraries whose
    code is not part of the repository. *)
Class Platform : Type := {
  (** [os.getenv] *)
  getenv : string -> option string;
  (** [jwt.encode(claims, key, algorithm=...)] *)
  jwt_encode : gmap string string -> string -> string -> string;
  (** [jwt.decode(token, key, algorithms=...)]; [None] stands for a raised
      [JWTError] *)
  jwt_decode : string -> string -> list string -> option (gmap string string);
  (** [str(e)] of an [HTTPException] with this status code and detail *)
  HTTPException_str : Z -> string -> string;
  (** [str(e)] of the error raised by the insert of this row when a row
      with its primary key is already stored *)
  IntegrityError_str : VM.t -> string
}.

(** The state that outlives a request: the module-level client and the
    table, keyed by its primary key. *)
Record world : Type := {
  sdk_client : sdk.Client;
  vms : gmap string VM.t
}.

(** Code of a request handler: it reads and writes the [world] and returns
    or raises. *)
Definition M (A : Type) : Type := world -> result A * world.

Definition ret {A : Type} (a : A) : M A := fun w => (Return a, w).

Definition raise {A : Type} (e : exn) : M A := fun w => (Raise e, w).

Definition bind {A B : Type} (m : M A) (k : A -> M B) : M B := fun w =>
  match m w with
  | (Return a, w) => k a w
  | (Raise e, w) => (Raise e, w)
  end.

Notation "x <- m ;; k" := (bind m (fun x => k))
  (at level 100, m at next level, right associativity).

(** [try: body except Exception as e: handler(e)] *)
Definition try_except_Exception {A : Type} (body : M A) (handler : exn -> M A)
    : M A := fun w =>
  match body w with
  | (Return a, w) => (Return a, w)
  | (Raise e, w) =>
      if isinstance_Exception e then handler e w else (Raise e, w)
  end.

(** A method call on the module-level [sdk_client]. *)
Definition call_sdk {A : Type} (m : sdk.method A) : M A := fun w =>
  let (r, c) := m (sdk_client w) in
  (r, {| sdk_client := c; vms := vms w |}).

Module main.

Section Service.
Context {Py : Pydantic} {P : Platform}.

Definition SECRET_KEY : string := default "dev_secret_key" (getenv "SECRET_KEY").

Definition ALGORITHM : string := "HS256".

(** [sdk_client = Client(api_key=os.getenv('SDK_API_KEY'))] and a new,
    empty table. *)
Definition initial : world :=
  {| sdk_client := sdk.init (getenv "SDK_API_KEY"); vms := ∅ |}.

(** [str(e)]: the message an exception was built with, or what the library
    prints. *)
Definition str (e : exn) : string :=
  match e with
  | AuthenticationError msg => msg
  | NoResourcesAvailableError msg => msg
  | HTTPException status_code detail => HTTPException_str status_code detail
  | SQLAlchemyError msg => msg
  | ValidationError msg => msg
  end.

(** *** The session *)

(** [db.add(row); db.commit()]: nothing is written when the commit
    raises. *)
Definition db_add_commit (o : oracle) (row : VM.t) : M unit := fun w =>
  match commit_error o with
  | Some msg => (Raise (SQLAlchemyError msg), w)
  | None =>
      match vms w !! VM.id row with
      | Some _ =>
          (Raise (SQLAlchemyError (IntegrityError_str row)), w)
      | None =>
          (Return tt,
           {| sdk_client := sdk_client w; vms := <[VM.id row := row]> (vms w) |})
      end
  end.

(** [db.refresh(row)] *)
Definition db_refresh (o : oracle) (row : VM.t) : M VM.t := fun w =>
  match query_error o with
  | Some msg => (Raise (SQLAlchemyError msg), w)
  | None => (Return row, w)
  end.

(** [db.query(VM).filter(VM.id == vm_id).first()] *)
Definition db_query_first (o : oracle) (vm_id : string) : M (option VM.t) :=
  fun w =>
  match query_error o with
  | Some msg => (Raise (SQLAlchemyError msg), w)
  | None => (Return (vms w !! vm_id), w)
  end.

(** [db.delete(row); db.commit()] *)
Definition db_delete_commit (o : oracle) (row : VM.t) : M unit := fun w =>
  match commit_error o with
  | Some msg => (Raise (SQLAlchemyError msg), w)
  | None =>
      (Return tt,
       {| sdk_client := sdk_client w; vms := delete (VM.id row) (vms w) |})
  end.

(** *** Tokens *)

Definition get_current_user (token : string) : result string :=
  match jwt_decode token SECRET_KEY [ALGORITHM] with
  | Some payload =>
      match payload !! "sub" with
      | None => Raise (HTTPException 401 "Invalid credentials")
      | Some user_id => Return user_id
      end
  | None => Raise (HTTPException 401 "Invalid credentials")
  end.

Definition login (username password : string) : gmap string string :=
  let user_id := username in
  let access_token := jwt_encode {["sub" := user_id]} SECRET_KEY ALGORITHM in
  <["access_token" := access_token]> {["token_type" := "bearer"]}.

(** *** The two handlers *)

(** [new_vm = VM(...)] with the column defaults of the insert. *)
Definition new_vm (vm : VirtualMachine.t) (o : oracle) : VM.t :=
  {| VM.id := VirtualMachine.id vm;
     VM.name := VirtualMachine.name vm;
     VM.cpu_cores := VirtualMachine.cpu_cores vm;
     VM.memory := VirtualMachine.memory vm;
     VM.disk_size := VirtualMachine.disk_size vm;
     VM.public_ip := ip_str <$> VirtualMachine.public_ip vm;
     VM.status := "created";
     VM.created_at := utcnow_created o;
     VM.updated_at := utcnow_updated o |}.

Definition create_vm (request : VMCreateRequest.t) (current_user : string)
    (o : oracle) : M VMResponse.t :=
  try_except_Exception
    (_ <- call_sdk sdk.authenticate ;;
     vm <- call_sdk (sdk.create_vm
                       (VMCreateRequest.name request)
                       (VMCreateRequest.cpu_cores request)
                       (VMCreateRequest.memory request)
                       (VMCreateRequest.disk_size request)
                       (ip_str <$> VMCreateRequest.public_ip request)
                       (VMCreateRequest.labels request)
                       (randint o) (uuid4 o)) ;;
     _ <- db_add_commit o (new_vm vm o) ;;
     new_vm <- db_refresh o (new_vm vm o) ;;
     ret {| VMResponse.id := VM.id new_vm;
            VMResponse.name := VM.name new_vm;
            VMResponse.cpu_cores := VM.cpu_cores new_vm;
            VMResponse.memory := VM.memory new_vm;
            VMResponse.disk_size := VM.disk_size new_vm;
            VMResponse.public_ip := VM.public_ip new_vm;
            VMResponse.labels := or_empty (VMCreateRequest.labels request);
            VMResponse.status := VM.status new_vm;
            VMResponse.created_at := VM.created_at new_vm;
            VMResponse.updated_at := VM.updated_at new_vm |})
    (fun e => raise (HTTPException 500 (str e))).

Definition delete_vm (vm_id : string) (current_user : string) (o : oracle)
    : M VMResponse.t :=
  try_except_Exception
    (_ <- call_sdk sdk.authenticate ;;
     _ <- call_sdk (sdk.delete_vm vm_id) ;;
     vm <- db_query_first o vm_id ;;
     match vm with
     | None => raise (HTTPException 404 "VM not found")
     | Some vm =>
         _ <- db_delete_commit o vm ;;
         ret {| VMResponse.id := VM.id vm;
                VMResponse.name := VM.name vm;
                VMResponse.cpu_cores := VM.cpu_cores vm;
                VMResponse.memory := VM.memory vm;
                VMResponse.disk_size := VM.disk_size vm;
                VMResponse.public_ip := VM.public_ip vm;
                VMResponse.labels := [];
                VMResponse.status := "deleted";
                VMResponse.created_at := VM.created_at vm;
                VMResponse.updated_at := VM.updated_at vm |}
     end)
    (fun e => raise (HTTPException 500 (str e))).

(** *** The endpoints *)

(** What the handler gives the framework to answer with: the body of a
    200, the status and detail of an [HTTPException], or an exception that
    is not an [HTTPException] and leaves the handler, for which the
    application builds no response with a detail.  [Unprocessable422] is
    the answer of the framework itself, status 422, to a request whose
    fields [loc] fail validation; the handler is not run. *)
Inductive response (A : Type) : Type :=
| Ok200 (body : A)
| HttpError (status_code : Z) (detail : string)
| Unhandled (e : exn)
| Unprocessable422 (loc : list string).
Arguments Ok200 {A} body.
Arguments HttpError {A} status_code detail.
Arguments Unhandled {A} e.
Arguments Unprocessable422 {A} loc.

Definition respond {A : Type} (r : result A) : response A :=
  match r with
  | Return a => Ok200 a
  | Raise (HTTPException status_code detail) => HttpError status_code detail
  | Raise e => Unhandled e
  end.

(** A route whose handler depends on [get_current_user], for a request
    whose [Authorization] header carries the bearer token [token]: the
    handler runs only when the dependency returns. *)
Definition with_current_user {A : Type} (token : string)
    (handler : string -> M A) : world -> response A * world := fun w =>
  match get_current_user token with
  | Return current_user =>
      let (r, w) := handler current_user w in (respond r, w)
  | Raise e => (respond (Raise e), w)
  end.



(** [POST /vms] with the bearer token [token] and a body that validated as
    [request] *)
Definition post_vms (token : string) (request : VMCreateRequest.t)
    (o : oracle) : world -> response VMResponse.t * world :=
  with_current_user token (fun current_user => create_vm request current_user o).

(** [DELETE /vms/{vm_id}] with the bearer token [token] *)
Definition delete_vms (token : string) (vm_id : string) (o : oracle)
    : world -> response VMResponse.t * world :=
  with_current_user token (fun current_user => delete_vm vm_id current_user o).

(** The requests that reach the table, and the states they lead to. *)
Inductive request : Type :=
| PostVms (token : string) (body : VMCreateRequest.t)
| DeleteVms (token : string) (vm_id : string).

Definition step (r : request) (o : oracle) (w : world) : world :=
  match r with
  | PostVms token body => snd (post_vms token body o w)
  | DeleteVms token vm_id => snd (delete_vms token vm_id o w)
  end.

Inductive reachable : world -> Prop :=
| reachable_initial : reachable initial
| reachable_step r o w : reachable w -> reachable (step r o w).

End Service.

Arguments Ok200 {A} body.
Arguments HttpError {A} status_code detail.
Arguments Unhandled {A} e.
Arguments Unprocessable422 {A} loc.

End main.


(** ** Vocabulary of the statements *)

(** Whether a call raised [NoResourcesAvailableError]. *)
Definition raises_NoResourcesAvailableError {A : Type} (r : result A) : bool :=
  match r with
  | Raise (NoResourcesAvailableError _) => true
  | _ => false
  end.

(** Every row is stored under its id and has status [created]. *)
Definition table_invariant (t : gmap string VM.t) : Prop :=
  map_Forall (λ k row, VM.id row = k ∧ VM.status row = "created") t.

(** The client of the service once it has authenticated. *)
Definition authenticated_client (w : world) : sdk.Client :=
  {| sdk.api_key := sdk.api_key (sdk_client w); sdk.authenticated := true |}.

(** The body that answers a request that made or found the row [row]. *)
Definition body_of (row : VM.t) (labels : list string) (status : string)
    : VMResponse.t :=
  {| VMResponse.id := VM.id row;
     VMResponse.name := VM.name row;
     VMResponse.cpu_cores := VM.cpu_cores row;
     VMResponse.memory := VM.memory row;
     VMResponse.disk_size := VM.disk_size row;
     VMResponse.public_ip := VM.public_ip row;
     VMResponse.labels := labels;
     VMResponse.status := status;
     VMResponse.created_at := VM.created_at row;
     VMResponse.updated_at := VM.updated_at row |}.

Section Statements.
Context {Py : Pydantic}.

(** A field of the [VirtualMachine] is stored in the row made from it when
    some function of the row gives it back. *)
Definition persisted {A : Type} (field : VirtualMachine.t → A) : Prop :=
  ∃ column : VM.t → A, ∀ vm o, column (main.new_vm vm o) = field vm.

(** The row that a request and the readings of its oracle give. *)
Definition row_of (request : VMCreateRequest.t) (o : oracle) : VM.t :=
  {| VM.id := uuid4 o;
     VM.name := VMCreateRequest.name request;
     VM.cpu_cores := VMCreateRequest.cpu_cores request;
     VM.memory := VMCreateRequest.memory request;
     VM.disk_size := VMCreateRequest.disk_size request;
     VM.public_ip := ip_str <$> VMCreateRequest.public_ip request;
     VM.status := "created";
     VM.created_at := utcnow_created o;
     VM.updated_at := utcnow_updated o |}.

(** What the description of [Client.create_vm] says of an authenticated
    call whose draw is not 1: it returns a [VirtualMachine] that has the
    supplied [public_ip], whatever text that is. *)
Definition returns_machine_for (public_ip : option string) : Prop :=
  ∀ name cpu_cores memory disk_size labels randint uuid4 self,
    sdk.authenticated self = true → randint ≠ 1%Z →
    ∃ vm,
      (sdk.create_vm name cpu_cores memory disk_size public_ip labels
         randint uuid4 self).1 = Return vm ∧
      ip_str <$> VirtualMachine.public_ip vm = public_ip.

End Statements.

(** ** Libraries and inputs to run the code on *)

(** A validation that knows two addresses, one of each family.  It takes
    the texts that [ipaddress] reads as these addresses, and gives their
    canonical text back; every other text fails. *)
Inductive example_address : Type :=
| documentation_ipv4
| loopback_ipv6.

Definition example_pydantic : Pydantic :=
  {| IPvAnyAddress := example_address;
     ip_str := λ a,
       match a with
       | documentation_ipv4 => "203.0.113.7"
       | loopback_ipv6 => "::1"
       end;
     IPvAnyAddress_validate := λ text,
       if String.eqb text "203.0.113.7" then Some documentation_ipv4
       else if String.eqb text "::1" then Some loopback_ipv6
       else if String.eqb text "0:0:0:0:0:0:0:1" then Some loopback_ipv6
       else if String.eqb text "::0001" then Some loopback_ipv6
       else None;
     ValidationError_str := λ text,
       "1 validation error for VirtualMachine: public_ip: " +:+ text;
     IPvAnyAddress_validate_str := λ a,
       match a with
       | documentation_ipv4 => eq_refl
       | loopback_ipv6 => eq_refl
       end |}.

(** [str(e)] of a Starlette [HTTPException]: the status code, a colon and
    the detail. *)
Definition starlette_str (status_code : Z) (detail : string) : string :=
  pretty status_code +:+ ": " +:+ detail.

(** [SDK_API_KEY] is set to [sdk_api_key] or unset, [SECRET_KEY] is unset.
    The token of a user is the user name, and every token decodes.  The
    text of an integrity error stands for the one of the library, which
    also prints the statement and the values of the row. *)
Definition example_platform (sdk_api_key : option string) : Platform :=
  {| getenv := λ name,
       if String.eqb name "SDK_API_KEY" then sdk_api_key else None;
     jwt_encode := λ claims key algorithm, default "" (claims !! "sub");
     jwt_decode := λ token key algorithms, Some {["sub" := token]};
     HTTPException_str := starlette_str;
     IntegrityError_str := λ row,
       "UNIQUE constraint failed: vms.id (" +:+ VM.id row +:+ ")" |}.

(** A platform whose token for a subject is the key, a colon and the
    subject: a token decodes under the key it was made with only.
    [SECRET_KEY] is unset. *)
Definition keyed_platform (sdk_api_key : option string) : Platform :=
  {| getenv := λ name,
       if String.eqb name "SDK_API_KEY" then sdk_api_key else None;
     jwt_encode := λ claims key algorithm,
       key +:+ ":" +:+ default "" (claims !! "sub");
     jwt_decode := λ token key algorithms,
       if String.prefix (key +:+ ":") token then
         Some {["sub" := String.substring (String.length key + 1)
                           (String.length token) token]}
       else None;
     HTTPException_str := starlette_str;
     IntegrityError_str := λ row,
       "UNIQUE constraint failed: vms.id (" +:+ VM.id row +:+ ")" |}.

(** The keyed platform with the API key 1234. *)
Definition keyed : Platform := keyed_platform (Some "1234").

(** A request during which the persistence layer does not raise. *)
Definition example_oracle (randint : Z) (uuid4 : string) : oracle :=
  {| randint := randint;
     uuid4 := uuid4;
     utcnow_created := 1730000000;
     utcnow_updated := 1730000000;
     query_error := None;
     commit_error := None |}.

(** The state in which the service starts. *)
Definition example_initial (sdk_api_key : option string) : world :=
  main.initial (P := example_platform sdk_api_key).

Section Examples.

#[local] Existing Instance example_pydantic.

(** The body of the request of [test_create_vm]. *)
Definition example_request : VMCreateRequest.t :=
  {| VMCreateRequest.name := "test-vm";
     VMCreateRequest.cpu_cores := 2;
     VMCreateRequest.memory := 4096;
     VMCreateRequest.disk_size := 50;
     VMCreateRequest.public_ip := None;
     VMCreateRequest.labels := None |}.

(** The state after the create and the delete of [test_delete_vm]. *)
Definition after_create_and_delete : world :=
  let P := example_platform (Some "1234") in
  main.step (main.DeleteVms "testuser" "uuid4") (example_oracle 50 "uuid4")
    (main.step (main.PostVms "testuser" example_request)
       (example_oracle 50 "uuid4") (example_initial (Some "1234"))).

(** A request with an address and labels. *)
Definition labelled_request : VMCreateRequest.t :=
  {| VMCreateRequest.name := "web-1";
     VMCreateRequest.cpu_cores := 4;
     VMCreateRequest.memory := 8192;
     VMCreateRequest.disk_size := 100;
     VMCreateRequest.public_ip := Some documentation_ipv4;
     VMCreateRequest.labels := Some ["web"; "prod"] |}.

(** The state of the keyed platform after one create. *)
Definition keyed_after_create : world :=
  let P := keyed in
  main.step (main.PostVms "dev_secret_key:alice" labelled_request)
    (example_oracle 50 "uuid4") main.initial.

End Examples.


(** * Properties of the provisioning client *)

Section ClientProperties.

Import sdk.

Context {Py : Pydantic}.

Lemma truthy_Some_nonempty (k : string) : k ≠ "" → truthy (Some k) = true.
Proof.
  intros Hk. simpl. destruct (String.eqb_spec k ""); [contradiction | done].
Qed.

Lemma authenticate_keeps_api_key (c : Client) :
  api_key (authenticate c).2 = api_key c.
Proof. unfold authenticate. by destruct (truthy (api_key c)). Qed.

Lemma create_vm_keeps_client n cpu mem disk ip ls r u (c : Client) :
  (create_vm n cpu mem disk ip ls r u c).2 = c.
Proof.
  unfold create_vm. destruct (authenticated c); simpl; [| done].
  by destruct (r =? 1)%Z.
Qed.

(** The text of an address validates: the constructor returns. *)
Lemma new_of_address i n cpu mem disk (ip : option IPvAnyAddress) ls :
  VirtualMachine.new i n cpu mem disk (ip_str <$> ip) ls =
    Return {| VirtualMachine.id := i;
              VirtualMachine.name := n;
              VirtualMachine.cpu_cores := cpu;
              VirtualMachine.memory := mem;
              VirtualMachine.disk_size := disk;
              VirtualMachine.public_ip := ip;
              VirtualMachine.labels := ls |}.
Proof.
  unfold VirtualMachine.new. destruct ip as [a |]; [| done].
  simpl. by rewrite IPvAnyAddress_validate_str.
Qed.

Lemma new_is_not_a_client_exception i n cpu mem disk ip ls :
  ∀ e, VirtualMachine.new i n cpu mem disk ip ls = Raise e →
    isinstance_ClientException e = false.
Proof.
  intros e. unfold VirtualMachine.new.
  destruct ip as [text |]; [| done].
  destruct (IPvAnyAddress_validate text); [done |]. by intros [= <-].
Qed.

Lemma delete_vm_keeps_client vm_id (c : Client) : (delete_vm vm_id c).2 = c.
Proof. unfold delete_vm. by destruct (authenticated c). Qed.

Lemma run_keeps_authenticated (o : op) (c : Client) :
  authenticated c = true → authenticated (run o c) = true.
Proof.
  intros Hc. destruct o; simpl.
  - unfold authenticate. by destruct (truthy (api_key c)).
  - by rewrite create_vm_keeps_client.
  - by rewrite delete_vm_keeps_client.
Qed.

Lemma run_all_keeps_authenticated (os : list op) (c : Client) :
  authenticated c = true → authenticated (run_all os c) = true.
Proof.
  revert c. induction os as [| o os IH]; intros c Hc; [done |].
  simpl. apply IH. by apply run_keeps_authenticated.
Qed.

(** C5. [authenticate()] raises [AuthenticationError] when no API key is
    configured; with a nonempty API key it sets the authenticated flag to
    true, leaves the key as it is and returns true. *)
Theorem authenticate_spec (c : Client) :
  (api_key c = None →
     authenticate c = (Raise (AuthenticationError "Invalid API key"), c)) ∧
  (∀ k, api_key c = Some k → k ≠ "" →
     authenticate c =
       (Return true, {| api_key := Some k; authenticated := true |})).
Proof.
  split.
  - intros Hk. unfold authenticate. by rewrite Hk.
  - intros k Hk Hne. unfold authenticate.
    rewrite Hk, (truthy_Some_nonempty k Hne). done.
Qed.

Lemma authenticate_spec_witness :
  authenticate (init None) =
    (Raise (AuthenticationError "Invalid API key"), init None) ∧
  authenticate (init (Some "1234")) =
    (Return true, {| api_key := Some "1234"; authenticated := true |}).
Proof.
  split.
  - apply (proj1 (authenticate_spec (init None))). reflexivity.
  - apply (proj2 (authenticate_spec (init (Some "1234"))) "1234").
    + reflexivity.
    + discriminate.
Defined.

(** C9. A client built with the empty string as API key fails to
    authenticate with [AuthenticationError], exactly as a client built with
    no key does: the outcome is the same and the flag stays false. *)
Theorem authenticate_empty_api_key :
  authenticate (init (Some "")) =
    (Raise (AuthenticationError "Invalid API key"), init (Some "")) ∧
  (authenticate (init (Some ""))).1 = (authenticate (init None)).1 ∧
  authenticated (authenticate (init (Some ""))).2 = false ∧
  ∀ a, (authenticate {| api_key := Some ""; authenticated := a |}).1 =
       Raise (AuthenticationError "Invalid API key").
Proof. repeat split. Qed.

(** C4, as the code has it.  [create_vm] on a client that is not
    authenticated raises [AuthenticationError].  On an authenticated client
    it raises [NoResourcesAvailableError] exactly when the draw of
    [random.randint(1, 100)] is 1, which is one of the hundred outcomes of
    the draw.  On any other draw the [VirtualMachine] is built and its
    [public_ip] validated: when [public_ip] is omitted, or is a text that
    validates as an address, the call returns a [VirtualMachine] whose id
    is the [uuid4()] of this call (so two calls with different draws of
    [uuid4()] return different ids), with the supplied name, cpu_cores,
    memory and disk_size, with no address or the address that the text
    validates as, and with the supplied labels, or the empty list when
    labels is omitted; when [public_ip] is a text that does not validate,
    the call raises [ValidationError]. *)
Theorem create_vm_spec (self : Client) (name : string)
    (cpu_cores memory disk_size : Z) (public_ip : option string)
    (labels : option (list string)) (randint : Z) (uuid4 : string) :
  (1 ≤ randint ≤ 100)%Z →
  let call r u :=
    (create_vm name cpu_cores memory disk_size public_ip labels r u self).1 in
  (authenticated self = false →
     call randint uuid4 = Raise (AuthenticationError "Not authenticated")) ∧
  (authenticated self = true →
     (call randint uuid4 =
        Raise (NoResourcesAvailableError
                 "No resources available to create a new virtual machine")
      ↔ randint = 1%Z) ∧
     length draws = 100 ∧
     length (filter (λ r, raises_NoResourcesAvailableError (call r uuid4))
               draws) = 1 ∧
     (randint ≠ 1%Z →
        (∀ address,
           IPvAnyAddress_validate <$> public_ip = Some <$> address →
           call randint uuid4 =
             Return {| VirtualMachine.id := uuid4;
                       VirtualMachine.name := name;
                       VirtualMachine.cpu_cores := cpu_cores;
                       VirtualMachine.memory := memory;
                       VirtualMachine.disk_size := disk_size;
                       VirtualMachine.public_ip := address;
                       VirtualMachine.labels := default [] labels |} ∧
           ∀ uuid4', uuid4' ≠ uuid4 →
             call randint uuid4' ≠ call randint uuid4) ∧
        (∀ text,
           public_ip = Some text → IPvAnyAddress_validate text = None →
           call randint uuid4 =
             Raise (ValidationError (ValidationError_str text))))).
Proof.
  intros Hr call. subst call. unfold create_vm. split.
  - intros Ha. by rewrite Ha.
  - intros Ha. rewrite Ha. simpl. split; [| split; [| split]].
    + destruct (Z.eqb_spec randint 1) as [-> | Hne]; simpl; [done |].
      split; [| contradiction]. intros Hraise.
      apply new_is_not_a_client_exception in Hraise. discriminate.
    + reflexivity.
    + unfold VirtualMachine.new.
      destruct public_ip as [text |];
        [destruct (IPvAnyAddress_validate text) |]; vm_compute; reflexivity.
    + intros Hne. destruct (Z.eqb_spec randint 1); [contradiction |].
      simpl. unfold VirtualMachine.new. split.
      * intros address Hvalid.
        assert (Hlabels : or_empty labels = default [] labels)
          by by destruct labels as [[|]|].
        rewrite Hlabels.
        destruct public_ip as [text |], address as [address |];
          simpl in Hvalid; try discriminate.
        -- injection Hvalid as ->.
           split; [done |]. intros uuid4' Hu Heq. by simplify_eq.
        -- split; [done |]. intros uuid4' Hu Heq. by simplify_eq.
      * intros text -> ->. done.
Qed.

(** C6. [delete_vm(vm_id)] raises [AuthenticationError] on a client that is
    not authenticated; on an authenticated client it returns true whatever
    the id is: the outcome and the client afterwards do not depend on
    [vm_id], and the client keeps no record of ids to look it up in. *)
Theorem delete_vm_spec (self : Client) (vm_id : string) :
  (authenticated self = false →
     delete_vm vm_id self =
       (Raise (AuthenticationError "Not authenticated"), self)) ∧
  (authenticated self = true → delete_vm vm_id self = (Return true, self)) ∧
  (∀ vm_id', delete_vm vm_id' self = delete_vm vm_id self).
Proof.
  unfold delete_vm. split; [| split].
  - intros Ha. by rewrite Ha.
  - intros Ha. by rewrite Ha.
  - done.
Qed.

Lemma delete_vm_spec_witness :
  delete_vm "my-vm" (init (Some "1234")) =
    (Raise (AuthenticationError "Not authenticated"), init (Some "1234")) ∧
  delete_vm "my-vm" (authenticate (init (Some "1234"))).2 =
    (Return true, (authenticate (init (Some "1234"))).2).
Proof.
  split.
  - apply (proj1 (delete_vm_spec (init (Some "1234")) "my-vm")). reflexivity.
  - apply (proj1 (proj2 (delete_vm_spec (authenticate (init (Some "1234"))).2
                           "my-vm"))).
    reflexivity.
Defined.

(** C10. The authenticated flag is monotone.  A new client has it false.
    An operation that finds it false and leaves it true is an
    [authenticate()] that returned true.  No operation, whatever its
    outcome, turns it from true to false; so after any sequence of
    operations on an authenticated client, [create_vm] does not raise
    [AuthenticationError], also when it raises [NoResourcesAvailableError],
    and [delete_vm] returns true. *)
Theorem authenticated_monotone :
  (∀ k, authenticated (init k) = false) ∧
  (∀ o c, authenticated c = false → authenticated (run o c) = true →
     o = Authenticate ∧ (authenticate c).1 = Return true) ∧
  (∀ o c, authenticated c = true → authenticated (run o c) = true) ∧
  (∀ os c, authenticated c = true →
     authenticated (run_all os c) = true ∧
     (∀ n cpu mem disk ip ls r u msg,
        (create_vm n cpu mem disk ip ls r u (run_all os c)).1 ≠
          Raise (AuthenticationError msg)) ∧
     (∀ vm_id, (delete_vm vm_id (run_all os c)).1 = Return true)).
Proof.
  split; [done |]. split; [| split].
  - intros o c Hc Hrun. destruct o; simpl in Hrun.
    + split; [done |]. unfold authenticate in *.
      destruct (truthy (api_key c)); simpl in *; [done | congruence].
    + rewrite create_vm_keeps_client in Hrun. congruence.
    + rewrite delete_vm_keeps_client in Hrun. congruence.
  - apply run_keeps_authenticated.
  - intros os c Hc.
    pose proof (run_all_keeps_authenticated os c Hc) as Hall.
    split; [done |]. split.
    + intros n cpu mem disk ip ls r u msg. unfold create_vm.
      rewrite Hall. simpl. destruct (r =? 1)%Z; [done |].
      intros Hraise. apply new_is_not_a_client_exception in Hraise.
      discriminate.
    + intros vm_id. unfold delete_vm. by rewrite Hall.
Qed.

End ClientProperties.


(** * Properties of the HTTP service *)

Section ServiceProperties.

Import main.

Context {Py : Pydantic} {P : Platform}.

(** Unfold a handler down to the tests it makes. *)
Ltac run_handler :=
  unfold create_vm, delete_vm, try_except_Exception, bind, call_sdk,
    sdk.authenticate, sdk.create_vm, sdk.delete_vm, db_add_commit,
    db_refresh, db_query_first, db_delete_commit, ret, raise;
  rewrite ?new_of_address; cbn.

Lemma with_current_user_valid {A : Type} token user (h : string → M A) w :
  get_current_user token = Return user →
  with_current_user token h w = (respond (h user w).1, (h user w).2).
Proof.
  intros Hu. unfold with_current_user. rewrite Hu. by destruct (h user w).
Qed.

Lemma with_current_user_Ok200 {A : Type} token (h : string → M A) w body :
  (with_current_user token h w).1 = Ok200 body →
  ∃ user, get_current_user token = Return user ∧
    (h user w).1 = Return body ∧ (with_current_user token h w).2 = (h user w).2.
Proof.
  unfold with_current_user.
  destruct (get_current_user token) as [user | e].
  - destruct (h user w) as [[a | e] w'] eqn:Hh; cbn.
    + intros [= ->]. exists user. by rewrite Hh.
    + by destruct e.
  - by destruct e.
Qed.

Lemma with_current_user_vms {A : Type} token (h : string → M A) w :
  vms (with_current_user token h w).2 = vms w ∨
  ∃ user, vms (with_current_user token h w).2 = vms (h user w).2.
Proof.
  unfold with_current_user. destruct (get_current_user token) as [user | e].
  - right. exists user. by destruct (h user w).
  - by left.
Qed.

(** The table after [create_vm]: as before, or with one new row under a
    key that was free. *)
Lemma create_vm_vms request user o w :
  vms (create_vm request user o w).2 = vms w ∨
  ∃ vm, vms w !! VirtualMachine.id vm = None ∧
    vms (create_vm request user o w).2 =
      <[VirtualMachine.id vm := new_vm vm o]> (vms w).
Proof.
  run_handler.
  destruct (truthy (sdk.api_key (sdk_client w))); cbn; [| by left].
  destruct (randint o =? 1)%Z; cbn; [by left |].
  destruct (commit_error o); cbn; [by left |].
  destruct (vms w !! uuid4 o) eqn:Hfree; cbn; [by left |].
  destruct (query_error o); cbn; right;
    match goal with |- context [<[_ := new_vm ?vm _]> _] => by exists vm end.
Qed.

(** The table after [delete_vm]: as before, or without the row found. *)
Lemma delete_vm_vms vm_id user o w :
  vms (delete_vm vm_id user o w).2 = vms w ∨
  ∃ row, vms w !! vm_id = Some row ∧
    vms (delete_vm vm_id user o w).2 = delete (VM.id row) (vms w).
Proof.
  run_handler.
  destruct (truthy (sdk.api_key (sdk_client w))); cbn; [| by left].
  destruct (query_error o); cbn; [by left |].
  destruct (vms w !! vm_id) as [row |] eqn:Hrow; cbn; [| by left].
  destruct (commit_error o); cbn; [by left |].
  right. by exists row.
Qed.

Lemma step_preserves_invariant r o w :
  table_invariant (vms w) → table_invariant (vms (step r o w)).
Proof.
  intros Hinv. destruct r as [token body | token vm_id];
    unfold step, post_vms, delete_vms.
  - destruct (with_current_user_vms token (λ u, create_vm body u o) w)
      as [-> | [user ->]]; [done |].
    destruct (create_vm_vms body user o w) as [-> | (vm & _ & ->)]; [done |].
    apply map_Forall_insert_2; [done | exact Hinv].
  - destruct (with_current_user_vms token (λ u, delete_vm vm_id u o) w)
      as [-> | [user ->]]; [done |].
    destruct (delete_vm_vms vm_id user o w) as [-> | (row & _ & ->)]; [done |].
    by apply map_Forall_delete.
Qed.

Lemma reachable_invariant w : reachable w → table_invariant (vms w).
Proof.
  induction 1 as [| r o w _ IH].
  - apply map_Forall_empty.
  - by apply step_preserves_invariant.
Qed.

(** What is right in the description of failures: an exception of the
    persistence layer becomes a 500 that carries its text. *)
Lemma persistence_exceptions_are_500 token user request vm_id o w msg :
  get_current_user token = Return user →
  truthy (sdk.api_key (sdk_client w)) = true →
  (randint o ≠ 1%Z → commit_error o = Some msg →
     (post_vms token request o w).1 = HttpError 500 msg) ∧
  (query_error o = Some msg →
     (delete_vms token vm_id o w).1 = HttpError 500 msg).
Proof.
  intros Hu Hkey. unfold post_vms, delete_vms.
  rewrite !(with_current_user_valid _ _ _ _ Hu). split.
  - intros Hr Hc. run_handler. rewrite Hkey. cbn.
    destruct (Z.eqb_spec (randint o) 1); [done |]. cbn. by rewrite Hc.
  - intros Hq. run_handler. rewrite Hkey. cbn. by rewrite Hq.
Qed.

(** C1. With a valid token, an [AuthenticationError] or a
    [NoResourcesAvailableError] of the client is not turned into a 500: it
    is not an [Exception], [except Exception] lets it through, and it
    leaves the handler of [POST /vms] or [DELETE /vms/{vm_id}] as it was
    raised. *)
Theorem client_exceptions_escape (token user : string)
    (request : VMCreateRequest.t) (vm_id : string) (o : oracle) (w : world) :
  get_current_user token = Return user →
  (truthy (sdk.api_key (sdk_client w)) = false →
     (post_vms token request o w).1 =
       Unhandled (AuthenticationError "Invalid API key") ∧
     (delete_vms token vm_id o w).1 =
       Unhandled (AuthenticationError "Invalid API key")) ∧
  (truthy (sdk.api_key (sdk_client w)) = true → randint o = 1%Z →
     (post_vms token request o w).1 =
       Unhandled (NoResourcesAvailableError
                    "No resources available to create a new virtual machine")).
Proof.
  intros Hu. unfold post_vms, delete_vms.
  rewrite !(with_current_user_valid _ _ _ _ Hu). split.
  - intros Hkey. split; run_handler; by rewrite Hkey.
  - intros Hkey Hr. run_handler. rewrite Hkey, Hr. done.
Qed.

(** C2. With a valid token and no row under [vm_id], [DELETE /vms/{vm_id}]
    leaves the table as it is, but its answer is never a 404: the
    [HTTPException] with status 404 is raised inside the [try] and caught by
    [except Exception], which raises a 500 whose detail is the text of the
    404 (when the client cannot authenticate, its exception leaves the
    handler instead). *)
Theorem delete_unknown_vm_is_500 (token user vm_id : string) (o : oracle)
    (w : world) :
  get_current_user token = Return user →
  vms w !! vm_id = None →
  vms (delete_vms token vm_id o w).2 = vms w ∧
  (∀ detail, (delete_vms token vm_id o w).1 ≠ HttpError 404 detail) ∧
  (truthy (sdk.api_key (sdk_client w)) = true → query_error o = None →
     (delete_vms token vm_id o w).1 =
       HttpError 500 (HTTPException_str 404 "VM not found")).
Proof.
  intros Hu Hnone. unfold delete_vms.
  rewrite (with_current_user_valid _ _ _ _ Hu). cbn [fst snd].
  split; [| split].
  - destruct (delete_vm_vms vm_id user o w) as [-> | (row & Hrow & _)];
      [done | congruence].
  - intros detail. run_handler.
    destruct (truthy (sdk.api_key (sdk_client w))); cbn; [| done].
    destruct (query_error o); cbn; [done |].
    rewrite Hnone. done.
  - intros Hkey Hq. run_handler. rewrite Hkey. cbn. rewrite Hq. cbn.
    by rewrite Hnone.
Qed.

(** The fields of the [VirtualMachine] other than its labels can be read
    off the row. *)
Lemma other_fields_are_persisted :
  persisted VirtualMachine.id ∧ persisted VirtualMachine.name ∧
  persisted VirtualMachine.cpu_cores ∧ persisted VirtualMachine.memory ∧
  persisted VirtualMachine.disk_size ∧
  persisted (λ vm, ip_str <$> VirtualMachine.public_ip vm).
Proof.
  repeat split;
    [ exists VM.id | exists VM.name | exists VM.cpu_cores | exists VM.memory
    | exists VM.disk_size | exists VM.public_ip ]; done.
Qed.

(** C3, as the code has it.  When [POST /vms] succeeds, the table holds
    under the id of the [VirtualMachine] that the client returned a row
    with its id, name, cpu_cores, memory and disk_size, the text of its
    public_ip, status [created] and the two timestamps of the insert.  The
    row has nothing of the labels: whatever labels the [VirtualMachine]
    had, the row is the same. *)
Theorem persisted_record_fields (request : VMCreateRequest.t) (user : string)
    (o : oracle) (w w' : world) (body : VMResponse.t) :
  create_vm request user o w = (Return body, w') →
  ∃ vm row,
    (sdk.create_vm
       (VMCreateRequest.name request) (VMCreateRequest.cpu_cores request)
       (VMCreateRequest.memory request) (VMCreateRequest.disk_size request)
       (ip_str <$> VMCreateRequest.public_ip request)
       (VMCreateRequest.labels request) (randint o) (uuid4 o)
       (sdk.authenticate (sdk_client w)).2).1 = Return vm ∧
    vms w' !! VirtualMachine.id vm = Some row ∧
    VM.id row = VirtualMachine.id vm ∧
    VM.name row = VirtualMachine.name vm ∧
    VM.cpu_cores row = VirtualMachine.cpu_cores vm ∧
    VM.memory row = VirtualMachine.memory vm ∧
    VM.disk_size row = VirtualMachine.disk_size vm ∧
    VM.public_ip row = ip_str <$> VirtualMachine.public_ip vm ∧
    VM.status row = "created" ∧
    VM.created_at row = utcnow_created o ∧
    VM.updated_at row = utcnow_updated o ∧
    ∀ labels,
      new_vm {| VirtualMachine.id := VirtualMachine.id vm;
                VirtualMachine.name := VirtualMachine.name vm;
                VirtualMachine.cpu_cores := VirtualMachine.cpu_cores vm;
                VirtualMachine.memory := VirtualMachine.memory vm;
                VirtualMachine.disk_size := VirtualMachine.disk_size vm;
                VirtualMachine.public_ip := VirtualMachine.public_ip vm;
                VirtualMachine.labels := labels |} o = row.
Proof.
  run_handler.
  destruct (truthy (sdk.api_key (sdk_client w))); cbn; [| done].
  destruct (randint o =? 1)%Z; cbn; [done |].
  destruct (commit_error o); cbn; [done |].
  destruct (vms w !! uuid4 o); cbn; [done |].
  destruct (query_error o); cbn; [done |].
  intros [= <- <-]. cbn.
  eexists; eexists. split; [reflexivity |].
  split; [apply lookup_insert_eq |]. by repeat split.
Qed.

(** C7. In every state reached from the empty table through [POST /vms]
    and [DELETE /vms/{vm_id}], every stored row has status [created].  A
    [DELETE] that answers 200 has status [deleted] in its body, and the
    table that it leaves is the table before without the row. *)
Theorem stored_status_is_created (w : world) :
  reachable w →
  map_Forall (λ _ row, VM.status row = "created") (vms w) ∧
  ∀ token vm_id o body,
    (delete_vms token vm_id o w).1 = Ok200 body →
    VMResponse.status body = "deleted" ∧
    vms (delete_vms token vm_id o w).2 = delete vm_id (vms w) ∧
    vms (delete_vms token vm_id o w).2 !! vm_id = None.
Proof.
  intros Hw. pose proof (reachable_invariant w Hw) as Hinv. split.
  - intros k row Hrow. by destruct (Hinv k row Hrow).
  - intros token vm_id o body Hok. unfold delete_vms in *.
    apply with_current_user_Ok200 in Hok as (user & _ & Hbody & ->).
    revert Hbody. run_handler.
    destruct (truthy (sdk.api_key (sdk_client w))); cbn; [| done].
    destruct (query_error o); cbn; [done |].
    destruct (vms w !! vm_id) as [row |] eqn:Hrow; cbn; [| done].
    destruct (commit_error o); cbn; [done |].
    intros [= <-]. destruct (Hinv vm_id row Hrow) as [-> _].
    split; [done |]. split; [done |]. apply lookup_delete_eq.
Qed.



(** A token of [POST /token] is accepted by [get_current_user] for the user
    it was issued to, when decoding undoes encoding. *)
Lemma login_token_is_accepted (username password token : string) :
  (∀ claims key algorithm,
     jwt_decode (jwt_encode claims key algorithm) key [algorithm] =
       Some claims) →
  login username password !! "access_token" = Some token →
  get_current_user token = Return username.
Proof.
  intros Hjwt. unfold login. rewrite lookup_insert_eq. intros [= <-].
  unfold get_current_user. rewrite Hjwt. by rewrite lookup_singleton_eq.
Qed.

End ServiceProperties.


(** * The service at concrete requests *)

Section Runs.

Import main.

#[local] Existing Instance example_pydantic.

(** No [SDK_API_KEY] in the environment: the client raises, and what
    leaves [POST /vms] and [DELETE /vms/{vm_id}] is its
    [AuthenticationError], not a 500.  With a key and the draw 1, what
    leaves [POST /vms] is the [NoResourcesAvailableError]. *)
Lemma client_exceptions_escape_witness :
  (post_vms (P := example_platform None) "testuser" example_request
     (example_oracle 50 "uuid4") (example_initial None)).1 =
    Unhandled (AuthenticationError "Invalid API key") ∧
  (delete_vms (P := example_platform None) "testuser" "uuid4"
     (example_oracle 50 "uuid4") (example_initial None)).1 =
    Unhandled (AuthenticationError "Invalid API key") ∧
  (post_vms (P := example_platform (Some "1234")) "testuser" example_request
     (example_oracle 1 "uuid4")
     (example_initial (Some "1234"))).1 =
    Unhandled (NoResourcesAvailableError
                 "No resources available to create a new virtual machine").
Proof.
  pose proof (client_exceptions_escape (P := example_platform None)
                "testuser" "testuser" example_request "uuid4"
                (example_oracle 50 "uuid4") (example_initial None) eq_refl)
    as [Hauth _].
  pose proof (client_exceptions_escape (P := example_platform (Some "1234"))
                "testuser" "testuser" example_request "uuid4"
                (example_oracle 1 "uuid4") (example_initial (Some "1234")) eq_refl)
    as [_ Hres].
  destruct (Hauth eq_refl) as [Hpost Hdelete].
  split; [exact Hpost |]. split; [exact Hdelete |].
  exact (Hres eq_refl eq_refl).
Defined.

(** Deleting the same id once more: the row is gone, and the answer is a
    500 that wraps the 404. *)
Lemma delete_unknown_vm_is_500_witness :
  vms after_create_and_delete !! "uuid4" = None ∧
  (delete_vms (P := example_platform (Some "1234")) "testuser" "uuid4"
     (example_oracle 50 "uuid4") after_create_and_delete).1 =
    HttpError 500 "404: VM not found".
Proof.
  assert (Hnone : vms after_create_and_delete !! "uuid4" = None)
    by (vm_compute; reflexivity).
  split; [exact Hnone |].
  destruct (delete_unknown_vm_is_500 (P := example_platform (Some "1234"))
              "testuser" "testuser" "uuid4" (example_oracle 50 "uuid4")
              after_create_and_delete eq_refl Hnone) as (_ & _ & H500).
  exact (H500 eq_refl eq_refl).
Defined.



(** The runs of tests/test_main.py: a create answers 200 with the name of
    the request and status [created]; the delete of the id it returned
    answers 200 with status [deleted]. *)
Example test_create_vm :
  ∃ body,
    (post_vms (P := example_platform (Some "1234")) "testuser"
       example_request (example_oracle 50 "uuid4")
       (example_initial (Some "1234"))).1 = Ok200 body ∧
    VMResponse.name body = "test-vm" ∧ VMResponse.status body = "created".
Proof. eexists. split; [vm_compute; reflexivity | done]. Qed.

Example test_delete_vm :
  let P := example_platform (Some "1234") in
  let w := step (PostVms "testuser" example_request)
             (example_oracle 50 "uuid4") (example_initial (Some "1234")) in
  ∃ body,
    (delete_vms "testuser" "uuid4" (example_oracle 50 "uuid4") w).1 =
      Ok200 body ∧
    VMResponse.status body = "deleted".
Proof. eexists. split; [vm_compute; reflexivity | done]. Qed.

(** C3, as the claim has it, fails: the labels of the [VirtualMachine] are
    not stored.  Two machines that differ in their labels only give the
    same row, so nothing computed from the row gives the labels back; and
    a [POST /vms] with labels leaves the state that the same request
    without labels leaves. *)
Lemma labels_are_not_persisted :
  ¬ persisted VirtualMachine.labels ∧
  let P := example_platform (Some "1234") in
  step (PostVms "testuser"
          {| VMCreateRequest.name := "test-vm";
             VMCreateRequest.cpu_cores := 2;
             VMCreateRequest.memory := 4096;
             VMCreateRequest.disk_size := 50;
             VMCreateRequest.public_ip := None;
             VMCreateRequest.labels := Some ["web"] |})
    (example_oracle 50 "uuid4") (example_initial (Some "1234")) =
  step (PostVms "testuser" example_request)
    (example_oracle 50 "uuid4") (example_initial (Some "1234")).
Proof.
  split; [| vm_compute; reflexivity].
  intros [column Hcolumn].
  pose (vm ls := {| VirtualMachine.id := "uuid4";
                    VirtualMachine.name := "test-vm";
                    VirtualMachine.cpu_cores := 2;
                    VirtualMachine.memory := 4096;
                    VirtualMachine.disk_size := 50;
                    VirtualMachine.public_ip := None;
                    VirtualMachine.labels := ls |}).
  pose proof (Hcolumn (vm []) (example_oracle 50 "uuid4")) as Hnil.
  pose proof (Hcolumn (vm ["web"]) (example_oracle 50 "uuid4")) as Hweb.
  unfold vm, new_vm in Hnil, Hweb. cbn in Hnil, Hweb. congruence.
Qed.

Lemma persisted_record_fields_witness :
  ∃ row,
    vms (create_vm (P := example_platform (Some "1234")) example_request
           "testuser" (example_oracle 50 "uuid4")
           (example_initial (Some "1234"))).2 !! "uuid4" =
      Some row ∧
    VM.name row = "test-vm" ∧ VM.cpu_cores row = 2%Z ∧
    VM.status row = "created".
Proof.
  destruct (persisted_record_fields (P := example_platform (Some "1234"))
              example_request "testuser" (example_oracle 50 "uuid4")
              (example_initial (Some "1234"))
              (create_vm (P := example_platform (Some "1234")) example_request
                 "testuser" (example_oracle 50 "uuid4")
                 (example_initial (Some "1234"))).2
              {| VMResponse.id := "uuid4";
                 VMResponse.name := "test-vm";
                 VMResponse.cpu_cores := 2;
                 VMResponse.memory := 4096;
                 VMResponse.disk_size := 50;
                 VMResponse.public_ip := None;
                 VMResponse.labels := [];
                 VMResponse.status := "created";
                 VMResponse.created_at := 1730000000;
                 VMResponse.updated_at := 1730000000 |} eq_refl)
    as (vm & row & Hvm & Hrow & _ & Hname & Hcpu & _ & _ & _ & Hstatus & _).
  injection Hvm as <-. exists row. by repeat split.
Defined.

Lemma stored_status_is_created_witness :
  let P := example_platform (Some "1234") in
  let w := step (PostVms "testuser" example_request)
             (example_oracle 50 "uuid4") (example_initial (Some "1234")) in
  reachable w ∧
  vms w !! "uuid4" ≠ None ∧
  map_Forall (λ _ row, VM.status row = "created") (vms w).
Proof.
  intros P w.
  assert (Hw : reachable w)
    by apply reachable_step, (reachable_initial (P := P)).
  split; [exact Hw |]. split; [by vm_compute |].
  exact (proj1 (stored_status_is_created w Hw)).
Defined.

End Runs.


(** * Further properties of the client and of the service *)

Section ClientCalls.

Import sdk.

Context {Py : Pydantic}.

(** X1. Authenticating again changes nothing: the second [authenticate()]
    has the outcome of the first and leaves the client as the first left
    it. *)
Theorem authenticate_idempotent (c : Client) :
  authenticate (authenticate c).2 = authenticate c.
Proof.
  unfold authenticate. destruct (truthy (api_key c)) eqn:Hkey; cbn.
  - by rewrite Hkey.
  - by rewrite Hkey.
Qed.

Lemma run_keeps_api_key (o : op) (c : Client) : api_key (run o c) = api_key c.
Proof.
  destruct o; cbn.
  - apply authenticate_keeps_api_key.
  - by rewrite create_vm_keeps_client.
  - by rewrite delete_vm_keeps_client.
Qed.

Lemma run_all_cons (o : op) (os : list op) (c : Client) :
  run_all (o :: os) c = run_all os (run o c).
Proof. reflexivity. Qed.

Lemma run_all_keeps_api_key (os : list op) (c : Client) :
  api_key (run_all os c) = api_key c.
Proof.
  revert c. induction os as [| o os IH]; intros c; [done |].
  rewrite run_all_cons, IH. apply run_keeps_api_key.
Qed.

Lemma run_without_key (o : op) (k : option string) :
  truthy k = false → run o (init k) = init k.
Proof.
  intros Hk. destruct o; unfold run.
  - unfold authenticate. cbn. by rewrite Hk.
  - by rewrite create_vm_keeps_client.
  - by rewrite delete_vm_keeps_client.
Qed.

(** X2. No sequence of operations changes the API key of a client, and a
    client that cannot authenticate is never authenticated: with no key or
    the empty key, after any sequence of operations on a new client the
    flag is false and every [create_vm] and [delete_vm] raises
    [AuthenticationError]. *)
Theorem client_without_key_stays_locked (k : option string) (os : list op) :
  api_key (run_all os (init k)) = k ∧
  (truthy k = false →
     run_all os (init k) = init k ∧
     (∀ n cpu mem disk ip ls r u,
        (create_vm n cpu mem disk ip ls r u (run_all os (init k))).1 =
          Raise (AuthenticationError "Not authenticated")) ∧
     (∀ vm_id,
        (delete_vm vm_id (run_all os (init k))).1 =
          Raise (AuthenticationError "Not authenticated"))).
Proof.
  split; [apply run_all_keeps_api_key |].
  intros Hk.
  assert (Hrun : run_all os (init k) = init k).
  { induction os as [| o os IH]; [done |].
    by rewrite run_all_cons, run_without_key. }
  rewrite Hrun. done.
Qed.

End ClientCalls.

Section ClientRuns.

Import sdk.

#[local] Existing Instance example_pydantic.

Lemma create_vm_spec_witness :
  (1 ≤ 7 ≤ 100)%Z ∧
  (create_vm "my-vm" 1 512 10 None None 7 "uuid4"
     {| api_key := Some "1234"; authenticated := true |}).1 =
    Return {| VirtualMachine.id := "uuid4";
              VirtualMachine.name := "my-vm";
              VirtualMachine.cpu_cores := 1;
              VirtualMachine.memory := 512;
              VirtualMachine.disk_size := 10;
              VirtualMachine.public_ip := None;
              VirtualMachine.labels := [] |} ∧
  (create_vm "my-vm" 1 512 10 (Some "::0001") (Some ["web"]) 7 "uuid4"
     {| api_key := Some "1234"; authenticated := true |}).1 =
    Return {| VirtualMachine.id := "uuid4";
              VirtualMachine.name := "my-vm";
              VirtualMachine.cpu_cores := 1;
              VirtualMachine.memory := 512;
              VirtualMachine.disk_size := 10;
              VirtualMachine.public_ip := Some loopback_ipv6;
              VirtualMachine.labels := ["web"] |}.
Proof.
  assert (Hr : (1 ≤ 7 ≤ 100)%Z) by lia.
  assert (Hne : 7%Z ≠ 1%Z) by discriminate.
  split; [exact Hr |]. split.
  - destruct (create_vm_spec
                {| api_key := Some "1234"; authenticated := true |}
                "my-vm" 1 512 10 None None 7 "uuid4" Hr) as [_ Hauth].
    destruct (Hauth eq_refl) as (_ & _ & _ & Hok).
    exact (proj1 (proj1 (Hok Hne) None eq_refl)).
  - destruct (create_vm_spec
                {| api_key := Some "1234"; authenticated := true |}
                "my-vm" 1 512 10 (Some "::0001") (Some ["web"]) 7 "uuid4" Hr)
      as [_ Hauth].
    destruct (Hauth eq_refl) as (_ & _ & _ & Hok).
    exact (proj1 (proj1 (Hok Hne) (Some loopback_ipv6) eq_refl)).
Defined.

(** C4, as the claim has it, fails: an authenticated call whose draw is not
    1 does not return a [VirtualMachine] for every [public_ip].  For the
    text [not-an-ip] the validation of the model fails and the call raises
    [ValidationError]. *)
Lemma create_vm_rejects_ill_formed_public_ip :
  ¬ returns_machine_for (Some "not-an-ip") ∧
  (create_vm "my-vm" 1 512 10 (Some "not-an-ip") None 7 "uuid4"
     {| api_key := Some "1234"; authenticated := true |}).1 =
    Raise (ValidationError (ValidationError_str "not-an-ip")).
Proof.
  split; [| reflexivity].
  intros Hreturns.
  destruct (Hreturns "my-vm" 1%Z 512%Z 10%Z None 7%Z "uuid4"
              {| api_key := Some "1234"; authenticated := true |}
              eq_refl ltac:(discriminate)) as (vm & Hvm & _).
  discriminate Hvm.
Qed.

Lemma authenticated_monotone_witness :
  let c := (authenticate (init (Some "1234"))).2 in
  let os := [CreateVm "my-vm" 1 512 10 None None 1 "uuid4";
             DeleteVm "my-vm"; Authenticate] in
  authenticated c = true ∧ authenticated (run_all os c) = true.
Proof.
  intros c os.
  assert (Hc : authenticated c = true) by reflexivity.
  split; [exact Hc |].
  destruct authenticated_monotone as (_ & _ & _ & Hall).
  exact (proj1 (Hall os c Hc)).
Defined.

Lemma client_without_key_stays_locked_witness :
  let os := [Authenticate; DeleteVm "my-vm"; Authenticate] in
  truthy (Some "") = false ∧ run_all os (init (Some "")) = init (Some "").
Proof.
  intros os. split; [reflexivity |].
  exact (proj1 (proj2 (client_without_key_stays_locked (Some "") os) eq_refl)).
Defined.

End ClientRuns.

Section ServiceRequests.

Import main.

Context {Py : Pydantic} {P : Platform}.

Ltac run_handler :=
  unfold create_vm, delete_vm, try_except_Exception, bind, call_sdk,
    sdk.authenticate, sdk.create_vm, sdk.delete_vm, db_add_commit,
    db_refresh, db_query_first, db_delete_commit, ret, raise;
  rewrite ?new_of_address; cbn.

Lemma get_current_user_raises token e :
  get_current_user token = Raise e →
  e = HTTPException 401 "Invalid credentials".
Proof.
  unfold get_current_user.
  destruct (jwt_decode token SECRET_KEY [ALGORITHM]) as [payload |];
    [destruct (payload !! "sub") |]; congruence.
Qed.

Lemma with_current_user_invalid {A : Type} token (h : string → M A) w :
  (∀ user, get_current_user token ≠ Return user) →
  with_current_user token h w = (HttpError 401 "Invalid credentials", w).
Proof.
  intros Hno. unfold with_current_user.
  destruct (get_current_user token) as [user | e] eqn:Hu.
  - by destruct (Hno user).
  - by rewrite (get_current_user_raises token e Hu).
Qed.

(** The whole outcome of the handler of [POST /vms], by cases. *)
Lemma create_vm_cases request user o w :
  create_vm request user o w =
    if negb (truthy (sdk.api_key (sdk_client w))) then
      (Raise (AuthenticationError "Invalid API key"), w)
    else if (randint o =? 1)%Z then
      (Raise (NoResourcesAvailableError
                "No resources available to create a new virtual machine"),
       {| sdk_client := authenticated_client w; vms := vms w |})
    else
      match commit_error o with
      | Some msg =>
          (Raise (HTTPException 500 msg),
           {| sdk_client := authenticated_client w; vms := vms w |})
      | None =>
          match vms w !! uuid4 o with
          | Some _ =>
              (Raise (HTTPException 500
                        (IntegrityError_str (row_of request o))),
               {| sdk_client := authenticated_client w; vms := vms w |})
          | None =>
              (match query_error o with
               | Some msg => Raise (HTTPException 500 msg)
               | None =>
                   Return (body_of (row_of request o)
                             (or_empty (VMCreateRequest.labels request))
                             "created")
               end,
               {| sdk_client := authenticated_client w;
                  vms := <[uuid4 o := row_of request o]> (vms w) |})
          end
      end.
Proof.
  destruct w as [c t]. run_handler.
  unfold authenticated_client, row_of, body_of, new_vm. cbn.
  destruct (truthy (sdk.api_key c)); cbn; [| done].
  destruct (randint o =? 1)%Z; cbn; [done |].
  destruct (commit_error o); cbn; [done |].
  destruct (t !! uuid4 o); cbn; [done |].
  by destruct (query_error o).
Qed.

(** The whole outcome of the handler of [DELETE /vms/{vm_id}], by cases. *)
Lemma delete_vm_cases vm_id user o w :
  delete_vm vm_id user o w =
    if negb (truthy (sdk.api_key (sdk_client w))) then
      (Raise (AuthenticationError "Invalid API key"), w)
    else
      match query_error o with
      | Some msg =>
          (Raise (HTTPException 500 msg),
           {| sdk_client := authenticated_client w; vms := vms w |})
      | None =>
          match vms w !! vm_id with
          | None =>
              (Raise (HTTPException 500
                        (HTTPException_str 404 "VM not found")),
               {| sdk_client := authenticated_client w; vms := vms w |})
          | Some row =>
              match commit_error o with
              | Some msg =>
                  (Raise (HTTPException 500 msg),
                   {| sdk_client := authenticated_client w; vms := vms w |})
              | None =>
                  (Return (body_of row [] "deleted"),
                   {| sdk_client := authenticated_client w;
                      vms := delete (VM.id row) (vms w) |})
              end
          end
      end.
Proof.
  destruct w as [c t]. run_handler. unfold authenticated_client, body_of.
  cbn.
  destruct (truthy (sdk.api_key c)); cbn; [| done].
  destruct (query_error o); cbn; [done |].
  destruct (t !! vm_id); cbn; [| done].
  destruct (commit_error o); done.
Qed.

Lemma post_vms_valid token user request o w :
  get_current_user token = Return user →
  post_vms token request o w =
    (respond (create_vm request user o w).1, (create_vm request user o w).2).
Proof. intros Hu. unfold post_vms. by rewrite (with_current_user_valid _ _ _ _ Hu). Qed.

Lemma delete_vms_valid token user vm_id o w :
  get_current_user token = Return user →
  delete_vms token vm_id o w =
    (respond (delete_vm vm_id user o w).1, (delete_vm vm_id user o w).2).
Proof. intros Hu. unfold delete_vms. by rewrite (with_current_user_valid _ _ _ _ Hu). Qed.

(** X3. A token that does not decode under the secret key, or whose payload
    has no [sub], is refused: [get_current_user] raises a 401 with detail
    [Invalid credentials], and [POST /vms] and [DELETE /vms/{vm_id}] answer
    that 401 without running their handler, so neither the client nor the
    table changes. *)
Theorem invalid_token_is_401 (token : string) (request : VMCreateRequest.t)
    (vm_id : string) (o : oracle) (w : world) :
  (jwt_decode token SECRET_KEY [ALGORITHM] = None ∨
   ∃ payload, jwt_decode token SECRET_KEY [ALGORITHM] = Some payload ∧
     payload !! "sub" = None) →
  get_current_user token = Raise (HTTPException 401 "Invalid credentials") ∧
  post_vms token request o w = (HttpError 401 "Invalid credentials", w) ∧
  delete_vms token vm_id o w = (HttpError 401 "Invalid credentials", w).
Proof.
  intros Hbad.
  assert (Hu : get_current_user token =
                 Raise (HTTPException 401 "Invalid credentials")).
  { unfold get_current_user.
    destruct Hbad as [-> | (payload & -> & ->)]; done. }
  split; [exact Hu |].
  unfold post_vms, delete_vms.
  rewrite !with_current_user_invalid; [done | |]; intros user; congruence.
Qed.

(** X4. The token of [POST /token] is accepted for the user it was issued
    to, when decoding the encoded claims under the same key and algorithm
    gives the claims back: [get_current_user] returns the submitted
    username. *)
Theorem issued_token_authenticates (username password token : string) :
  jwt_decode (jwt_encode {["sub" := username]} SECRET_KEY ALGORITHM)
    SECRET_KEY [ALGORITHM] = Some {["sub" := username]} →
  login username password !! "access_token" = Some token →
  get_current_user token = Return username.
Proof.
  intros Hjwt. unfold login. rewrite lookup_insert_eq. intros [= <-].
  unfold get_current_user. rewrite Hjwt. by rewrite lookup_singleton_eq.
Qed.

Lemma create_vm_succeeds request user o w :
  truthy (sdk.api_key (sdk_client w)) = true →
  randint o ≠ 1%Z →
  commit_error o = None → query_error o = None →
  vms w !! uuid4 o = None →
  create_vm request user o w =
    (Return (body_of (row_of request o)
               (or_empty (VMCreateRequest.labels request)) "created"),
     {| sdk_client := authenticated_client w;
        vms := <[uuid4 o := row_of request o]> (vms w) |}).
Proof.
  intros Hkey Hr Hc Hq Hfree. rewrite create_vm_cases.
  rewrite Hkey, Hc, Hq, Hfree. cbn.
  by destruct (Z.eqb_spec (randint o) 1).
Qed.

(** X5. [POST /vms] succeeds when the token is valid, the API key is
    nonempty, the draw is not 1, the persistence layer does not raise and
    the id drawn is not yet a key of the table.  It answers 200 with the
    id drawn, the name, cpu_cores, memory and disk_size of the request, the
    text of its public_ip, its labels (the empty list when they are omitted
    or empty), status [created] and the timestamps of the insert; it
    stores the row under the id drawn and leaves the client
    authenticated. *)
Theorem post_vms_success (token user : string) (request : VMCreateRequest.t)
    (o : oracle) (w : world) :
  get_current_user token = Return user →
  truthy (sdk.api_key (sdk_client w)) = true →
  randint o ≠ 1%Z →
  commit_error o = None → query_error o = None →
  vms w !! uuid4 o = None →
  post_vms token request o w =
    (Ok200 {| VMResponse.id := uuid4 o;
              VMResponse.name := VMCreateRequest.name request;
              VMResponse.cpu_cores := VMCreateRequest.cpu_cores request;
              VMResponse.memory := VMCreateRequest.memory request;
              VMResponse.disk_size := VMCreateRequest.disk_size request;
              VMResponse.public_ip :=
                ip_str <$> VMCreateRequest.public_ip request;
              VMResponse.labels := default [] (VMCreateRequest.labels request);
              VMResponse.status := "created";
              VMResponse.created_at := utcnow_created o;
              VMResponse.updated_at := utcnow_updated o |},
     {| sdk_client := authenticated_client w;
        vms := <[uuid4 o := row_of request o]> (vms w) |}).
Proof.
  intros Hu Hkey Hr Hc Hq Hfree.
  rewrite (post_vms_valid _ _ _ _ _ Hu).
  rewrite (create_vm_succeeds _ _ _ _ Hkey Hr Hc Hq Hfree). cbn.
  unfold body_of. cbn. by destruct (VMCreateRequest.labels request) as [[|]|].
Qed.

(** X6. Create, then delete: after a [POST /vms] that succeeds as in X5, a
    [DELETE] of the id it returned, with any valid token (of the same user
    or of another) and no failure of the persistence layer, answers 200
    with the fields of the create, status [deleted] and no labels, and the
    table is again the table before the create. *)
Theorem create_then_delete_round_trip (token user token' user' : string)
    (request : VMCreateRequest.t) (o o' : oracle) (w : world) :
  get_current_user token = Return user →
  get_current_user token' = Return user' →
  truthy (sdk.api_key (sdk_client w)) = true →
  randint o ≠ 1%Z →
  commit_error o = None → query_error o = None →
  commit_error o' = None → query_error o' = None →
  vms w !! uuid4 o = None →
  delete_vms token' (uuid4 o) o' (post_vms token request o w).2 =
    (Ok200 (body_of (row_of request o) [] "deleted"),
     {| sdk_client := authenticated_client w; vms := vms w |}).
Proof.
  intros Hu Hu' Hkey Hr Hc Hq Hc' Hq' Hfree.
  rewrite (post_vms_valid _ _ _ _ _ Hu).
  rewrite (create_vm_succeeds _ _ _ _ Hkey Hr Hc Hq Hfree). cbn [fst snd].
  rewrite (delete_vms_valid _ _ _ _ _ Hu'), delete_vm_cases. cbn.
  rewrite Hkey, Hq', Hc', lookup_insert_eq. cbn.
  by rewrite (delete_insert_id _ _ _ Hfree).
Qed.

(** X7. An id that is already a key of the table is not stored twice: a
    [POST /vms] whose id drawn is taken answers 500 with the text of the
    integrity error, and the table, with the row that was stored under
    that id, is as before. *)
Theorem duplicate_id_is_500 (token user : string) (request : VMCreateRequest.t)
    (o : oracle) (w : world) (row : VM.t) :
  get_current_user token = Return user →
  truthy (sdk.api_key (sdk_client w)) = true →
  randint o ≠ 1%Z →
  commit_error o = None →
  vms w !! uuid4 o = Some row →
  (post_vms token request o w).1 =
    HttpError 500 (IntegrityError_str (row_of request o)) ∧
  vms (post_vms token request o w).2 = vms w.
Proof.
  intros Hu Hkey Hr Hc Hrow.
  rewrite (post_vms_valid _ _ _ _ _ Hu), create_vm_cases.
  rewrite Hkey, Hc, Hrow. cbn.
  by destruct (Z.eqb_spec (randint o) 1).
Qed.

(** X8. The row is committed before it is refreshed: when the commit goes
    through and the refresh raises, [POST /vms] answers 500 with the text
    of that exception, and the row is stored all the same. *)
Theorem refresh_failure_keeps_row (token user : string)
    (request : VMCreateRequest.t) (o : oracle) (w : world) (msg : string) :
  get_current_user token = Return user →
  truthy (sdk.api_key (sdk_client w)) = true →
  randint o ≠ 1%Z →
  commit_error o = None → query_error o = Some msg →
  vms w !! uuid4 o = None →
  (post_vms token request o w).1 = HttpError 500 msg ∧
  vms (post_vms token request o w).2 !! uuid4 o = Some (row_of request o).
Proof.
  intros Hu Hkey Hr Hc Hq Hfree.
  rewrite (post_vms_valid _ _ _ _ _ Hu), create_vm_cases.
  rewrite Hkey, Hc, Hq, Hfree. cbn.
  destruct (Z.eqb_spec (randint o) 1); [done |]. cbn.
  split; [done | apply lookup_insert_eq].
Qed.

(** The table after any [POST /vms]. *)
Lemma post_vms_table token request o w :
  vms (post_vms token request o w).2 = vms w ∨
  vms w !! uuid4 o = None ∧
  vms (post_vms token request o w).2 = <[uuid4 o := row_of request o]> (vms w).
Proof.
  unfold post_vms, with_current_user.
  destruct (get_current_user token) as [user | e]; [| by left].
  rewrite create_vm_cases.
  destruct (negb (truthy (sdk.api_key (sdk_client w)))); [by left |].
  destruct (randint o =? 1)%Z; [by left |].
  destruct (commit_error o); [by left |].
  destruct (vms w !! uuid4 o); [by left |].
  right. by destruct (query_error o).
Qed.

(** The table after any [DELETE /vms/{vm_id}]. *)
Lemma delete_vms_table token vm_id o w :
  vms (delete_vms token vm_id o w).2 = vms w ∧
    (∀ body, (delete_vms token vm_id o w).1 ≠ Ok200 body) ∨
  ∃ row, vms w !! vm_id = Some row ∧
    (delete_vms token vm_id o w).1 = Ok200 (body_of row [] "deleted") ∧
    vms (delete_vms token vm_id o w).2 = delete (VM.id row) (vms w).
Proof.
  unfold delete_vms, with_current_user.
  destruct (get_current_user token) as [user | e] eqn:Hu.
  - rewrite delete_vm_cases.
    destruct (negb (truthy (sdk.api_key (sdk_client w)))); [by left |].
    destruct (query_error o); [by left |].
    destruct (vms w !! vm_id) as [row |]; [| by left].
    destruct (commit_error o); [by left |].
    right. by exists row.
  - left. rewrite (get_current_user_raises token e Hu). done.
Qed.

(** X9. [POST /vms] never changes and never removes a row that is stored:
    whatever the request and its outcome, every row of the table is in the
    table afterwards, under the same key. *)
Theorem post_vms_keeps_rows (token : string) (request : VMCreateRequest.t)
    (o : oracle) (w : world) (k : string) (row : VM.t) :
  vms w !! k = Some row →
  vms (post_vms token request o w).2 !! k = Some row.
Proof.
  intros Hrow.
  destruct (post_vms_table token request o w) as [-> | [Hfree ->]]; [done |].
  rewrite lookup_insert_ne; [done |]. intros Heq. rewrite Heq in Hfree.
  congruence.
Qed.

(** X10. In a reachable state, [DELETE /vms/{vm_id}] succeeds when the
    token is valid, the API key is nonempty, the persistence layer does not
    raise and a row is stored under [vm_id]: it answers 200 with the fields
    of that row, whose id is [vm_id], status [deleted] and the empty list
    of labels (whatever labels the create was given), removes the row and
    leaves the client authenticated. *)
Theorem delete_vms_success (token user vm_id : string) (o : oracle)
    (w : world) (row : VM.t) :
  reachable w →
  get_current_user token = Return user →
  truthy (sdk.api_key (sdk_client w)) = true →
  query_error o = None → commit_error o = None →
  vms w !! vm_id = Some row →
  VM.id row = vm_id ∧
  delete_vms token vm_id o w =
    (Ok200 {| VMResponse.id := vm_id;
              VMResponse.name := VM.name row;
              VMResponse.cpu_cores := VM.cpu_cores row;
              VMResponse.memory := VM.memory row;
              VMResponse.disk_size := VM.disk_size row;
              VMResponse.public_ip := VM.public_ip row;
              VMResponse.labels := [];
              VMResponse.status := "deleted";
              VMResponse.created_at := VM.created_at row;
              VMResponse.updated_at := VM.updated_at row |},
     {| sdk_client := authenticated_client w; vms := delete vm_id (vms w) |}).
Proof.
  intros Hw Hu Hkey Hq Hc Hrow.
  destruct (reachable_invariant w Hw vm_id row Hrow) as [Hid _].
  split; [exact Hid |].
  rewrite (delete_vms_valid _ _ _ _ _ Hu), delete_vm_cases.
  rewrite Hkey, Hq, Hrow, Hc. cbn. unfold body_of. by rewrite Hid.
Qed.

(** X11. In a reachable state, [DELETE /vms/{vm_id}] touches the row under
    [vm_id] only: every other key has the row it had, no key gets a row it
    had not, and a [DELETE] that does not answer 200 leaves the whole table
    as it is. *)
Theorem delete_vms_touches_only_vm_id (token vm_id : string) (o : oracle)
    (w : world) :
  reachable w →
  (∀ k, k ≠ vm_id →
     vms (delete_vms token vm_id o w).2 !! k = vms w !! k) ∧
  dom (vms (delete_vms token vm_id o w).2) ⊆ dom (vms w) ∧
  ((∀ body, (delete_vms token vm_id o w).1 ≠ Ok200 body) →
     vms (delete_vms token vm_id o w).2 = vms w).
Proof.
  intros Hw.
  destruct (delete_vms_table token vm_id o w)
    as [[-> Hno] | (row & Hrow & Hok & ->)].
  - done.
  - destruct (reachable_invariant w Hw vm_id row Hrow) as [-> _].
    split; [| split].
    + intros k Hk. by rewrite lookup_delete_ne.
    + apply subseteq_dom, delete_subseteq.
    + intros Hno. by destruct (Hno _ Hok).
Qed.

(** X12. The answers of the two handlers to a request that reached
    them: one that carries a bearer token and, for [POST /vms], a body that
    validated.  [POST /vms] then answers 200, the 401 of a refused token or
    a 500, or lets the [AuthenticationError] of [authenticate()] or the
    [NoResourcesAvailableError] of the client through;
    [DELETE /vms/{vm_id}] answers 200, that 401 or a 500, or lets the
    [AuthenticationError] through.  Neither answers a 404 to such a
    request. *)
Theorem endpoint_answers (token : string) (request : VMCreateRequest.t)
    (vm_id : string) (o : oracle) (w : world) :
  ((∃ body, (post_vms token request o w).1 = Ok200 body) ∨
   (post_vms token request o w).1 = HttpError 401 "Invalid credentials" ∨
   (∃ detail, (post_vms token request o w).1 = HttpError 500 detail) ∨
   (post_vms token request o w).1 =
     Unhandled (AuthenticationError "Invalid API key") ∨
   (post_vms token request o w).1 =
     Unhandled (NoResourcesAvailableError
                  "No resources available to create a new virtual machine")) ∧
  ((∃ body, (delete_vms token vm_id o w).1 = Ok200 body) ∨
   (delete_vms token vm_id o w).1 = HttpError 401 "Invalid credentials" ∨
   (∃ detail, (delete_vms token vm_id o w).1 = HttpError 500 detail) ∨
   (delete_vms token vm_id o w).1 =
     Unhandled (AuthenticationError "Invalid API key")).
Proof.
  unfold post_vms, delete_vms, with_current_user.
  destruct (get_current_user token) as [user | e] eqn:Hu.
  - rewrite create_vm_cases, delete_vm_cases.
    destruct (negb (truthy (sdk.api_key (sdk_client w)))); cbn.
    { split; do 3 right; [by left | done]. }
    split.
    + destruct (randint o =? 1)%Z; cbn; [by do 4 right |].
      destruct (commit_error o); cbn; [right; right; left; by eexists |].
      destruct (vms w !! uuid4 o); cbn; [right; right; left; by eexists |].
      destruct (query_error o); cbn;
        [right; right; left; by eexists | left; by eexists].
    + destruct (query_error o); cbn; [right; right; left; by eexists |].
      destruct (vms w !! vm_id); cbn; [| right; right; left; by eexists].
      destruct (commit_error o); cbn;
        [right; right; left; by eexists | left; by eexists].
  - rewrite (get_current_user_raises token e Hu). cbn.
    split; right; by left.
Qed.

Lemma step_client r o w :
  sdk_client (step r o w) = sdk_client w ∨
  truthy (sdk.api_key (sdk_client w)) = true ∧
  sdk_client (step r o w) = authenticated_client w.
Proof.
  destruct r as [token body | token vm_id];
    unfold step, post_vms, delete_vms, with_current_user;
    (destruct (get_current_user token) as [user | e]; [| by left]).
  - rewrite create_vm_cases.
    destruct (truthy (sdk.api_key (sdk_client w))); cbn; [| by left].
    right. split; [done |].
    destruct (randint o =? 1)%Z; cbn; [done |].
    destruct (commit_error o); cbn; [done |].
    by destruct (vms w !! uuid4 o).
  - rewrite delete_vm_cases.
    destruct (truthy (sdk.api_key (sdk_client w))); cbn; [| by left].
    right. split; [done |].
    destruct (query_error o); cbn; [done |].
    destruct (vms w !! vm_id); cbn; [| done].
    by destruct (commit_error o).
Qed.

(** X14. The client of the service keeps the API key it was built with,
    the value of [SDK_API_KEY], in every reachable state, and it is
    authenticated in such a state only if that key is nonempty. *)
Theorem service_client_key (w : world) :
  reachable w →
  sdk.api_key (sdk_client w) = getenv "SDK_API_KEY" ∧
  (sdk.authenticated (sdk_client w) = true →
     truthy (getenv "SDK_API_KEY") = true).
Proof.
  induction 1 as [| r o w _ [IHkey IHauth]]; [done |].
  destruct (step_client r o w) as [-> | [Hkey ->]]; [done |].
  cbn. split; [done |]. intros _. by rewrite <- IHkey.
Qed.

Lemma step_without_key r o w :
  truthy (sdk.api_key (sdk_client w)) = false → step r o w = w.
Proof.
  intros Hkey.
  destruct r as [token body | token vm_id];
    unfold step, post_vms, delete_vms, with_current_user;
    (destruct (get_current_user token) as [user | e]; [| done]).
  - rewrite create_vm_cases, Hkey. done.
  - rewrite delete_vm_cases, Hkey. done.
Qed.

(** X15. Without an API key the service never changes: when [SDK_API_KEY]
    is unset or empty, every reachable state is the initial state, with the
    empty table and a client that is not authenticated. *)
Theorem service_without_api_key (w : world) :
  truthy (getenv "SDK_API_KEY") = false →
  reachable w →
  w = initial ∧ vms w = ∅ ∧ sdk.authenticated (sdk_client w) = false.
Proof.
  intros Hkey Hw. assert (Heq : w = initial); [| by rewrite Heq].
  induction Hw as [| r o w _ IH]; [done |].
  rewrite IH. by apply step_without_key.
Qed.

End ServiceRequests.

Section ServiceRuns.

Import main.

#[local] Existing Instance example_pydantic.
#[local] Existing Instance keyed.

Lemma keyed_after_create_reachable : reachable keyed_after_create.
Proof. apply reachable_step, reachable_initial. Qed.

Lemma invalid_token_is_401_witness :
  get_current_user "garbage" =
    Raise (HTTPException 401 "Invalid credentials") ∧
  post_vms "garbage" labelled_request (example_oracle 50 "uuid4") initial =
    (HttpError 401 "Invalid credentials", initial) ∧
  delete_vms "garbage" "uuid4" (example_oracle 50 "uuid4") keyed_after_create =
    (HttpError 401 "Invalid credentials", keyed_after_create).
Proof.
  assert (Hbad : jwt_decode "garbage" SECRET_KEY [ALGORITHM] = None)
    by (vm_compute; reflexivity).
  destruct (invalid_token_is_401 "garbage" labelled_request "uuid4"
              (example_oracle 50 "uuid4") initial (or_introl Hbad))
    as (Huser & Hpost & _).
  destruct (invalid_token_is_401 "garbage" labelled_request "uuid4"
              (example_oracle 50 "uuid4") keyed_after_create
              (or_introl Hbad)) as (_ & _ & Hdelete).
  exact (conj Huser (conj Hpost Hdelete)).
Defined.

Lemma issued_token_authenticates_witness :
  login "alice" "secret" !! "access_token" = Some "dev_secret_key:alice" ∧
  get_current_user "dev_secret_key:alice" = Return "alice".
Proof.
  assert (Htoken : login "alice" "secret" !! "access_token" =
                     Some "dev_secret_key:alice") by (vm_compute; reflexivity).
  split; [exact Htoken |].
  apply (issued_token_authenticates "alice" "secret" "dev_secret_key:alice");
    [vm_compute; reflexivity | exact Htoken].
Defined.

Lemma post_vms_success_witness :
  (post_vms "dev_secret_key:alice" labelled_request
     (example_oracle 50 "uuid4") initial).1 =
    Ok200 {| VMResponse.id := "uuid4";
             VMResponse.name := "web-1";
             VMResponse.cpu_cores := 4;
             VMResponse.memory := 8192;
             VMResponse.disk_size := 100;
             VMResponse.public_ip := Some "203.0.113.7";
             VMResponse.labels := ["web"; "prod"];
             VMResponse.status := "created";
             VMResponse.created_at := 1730000000;
             VMResponse.updated_at := 1730000000 |}.
Proof.
  assert (Hu : get_current_user "dev_secret_key:alice" = Return "alice")
    by (vm_compute; reflexivity).
  assert (Hkey : truthy (sdk.api_key (sdk_client initial)) = true)
    by (vm_compute; reflexivity).
  assert (Hr : randint (example_oracle 50 "uuid4") ≠ 1%Z) by discriminate.
  assert (Hfree : vms initial !! "uuid4" = None) by (vm_compute; reflexivity).
  rewrite (post_vms_success "dev_secret_key:alice" "alice" labelled_request
             (example_oracle 50 "uuid4") initial
             Hu Hkey Hr eq_refl eq_refl Hfree).
  reflexivity.
Defined.

Lemma create_then_delete_round_trip_witness :
  vms (delete_vms "dev_secret_key:bob" "uuid4" (example_oracle 7 "other")
         (post_vms "dev_secret_key:alice" labelled_request
            (example_oracle 50 "uuid4") initial).2).2 = ∅.
Proof.
  assert (Hu : get_current_user "dev_secret_key:alice" = Return "alice")
    by (vm_compute; reflexivity).
  assert (Hu' : get_current_user "dev_secret_key:bob" = Return "bob")
    by (vm_compute; reflexivity).
  assert (Hkey : truthy (sdk.api_key (sdk_client initial)) = true)
    by (vm_compute; reflexivity).
  assert (Hr : randint (example_oracle 50 "uuid4") ≠ 1%Z) by discriminate.
  assert (Hfree : vms initial !! "uuid4" = None) by (vm_compute; reflexivity).
  pose proof (create_then_delete_round_trip "dev_secret_key:alice" "alice"
                "dev_secret_key:bob" "bob" labelled_request
                (example_oracle 50 "uuid4") (example_oracle 7 "other") initial
                Hu Hu' Hkey Hr eq_refl eq_refl eq_refl eq_refl Hfree) as Hrt.
  change (uuid4 (example_oracle 50 "uuid4")) with "uuid4" in Hrt.
  rewrite Hrt. reflexivity.
Defined.

Lemma duplicate_id_is_500_witness :
  (post_vms "dev_secret_key:bob" example_request (example_oracle 50 "uuid4")
     keyed_after_create).1 =
    HttpError 500
      (IntegrityError_str (row_of example_request (example_oracle 50 "uuid4"))) ∧
  VM.name <$> vms (post_vms "dev_secret_key:bob" example_request
                     (example_oracle 50 "uuid4") keyed_after_create).2
                !! "uuid4" = Some "web-1".
Proof.
  assert (Hu : get_current_user "dev_secret_key:bob" = Return "bob")
    by (vm_compute; reflexivity).
  assert (Hkey : truthy (sdk.api_key (sdk_client keyed_after_create)) = true)
    by (vm_compute; reflexivity).
  assert (Hr : randint (example_oracle 50 "uuid4") ≠ 1%Z) by discriminate.
  assert (Hrow : vms keyed_after_create !! "uuid4" =
                   Some (row_of labelled_request (example_oracle 50 "uuid4")))
    by (vm_compute; reflexivity).
  destruct (duplicate_id_is_500 "dev_secret_key:bob" "bob" example_request
              (example_oracle 50 "uuid4") keyed_after_create _
              Hu Hkey Hr eq_refl Hrow) as [H500 Hsame].
  split; [exact H500 |]. rewrite Hsame, Hrow. reflexivity.
Defined.

Lemma refresh_failure_keeps_row_witness :
  let o := {| randint := 50; uuid4 := "uuid4";
              utcnow_created := 1730000000; utcnow_updated := 1730000000;
              query_error := Some "connection lost";
              commit_error := None |} in
  (post_vms "dev_secret_key:alice" labelled_request o initial).1 =
    HttpError 500 "connection lost" ∧
  vms (post_vms "dev_secret_key:alice" labelled_request o initial).2
    !! "uuid4" = Some (row_of labelled_request o).
Proof.
  intros o.
  assert (Hu : get_current_user "dev_secret_key:alice" = Return "alice")
    by (vm_compute; reflexivity).
  assert (Hkey : truthy (sdk.api_key (sdk_client initial)) = true)
    by (vm_compute; reflexivity).
  assert (Hr : randint o ≠ 1%Z) by discriminate.
  assert (Hfree : vms initial !! uuid4 o = None) by (vm_compute; reflexivity).
  exact (refresh_failure_keeps_row "dev_secret_key:alice" "alice"
           labelled_request o initial "connection lost"
           Hu Hkey Hr eq_refl eq_refl Hfree).
Defined.

Lemma post_vms_keeps_rows_witness :
  vms keyed_after_create !! "uuid4" =
    Some (row_of labelled_request (example_oracle 50 "uuid4")) ∧
  vms (post_vms "dev_secret_key:bob" example_request
         (example_oracle 9 "other") keyed_after_create).2 !! "uuid4" =
    Some (row_of labelled_request (example_oracle 50 "uuid4")).
Proof.
  assert (Hrow : vms keyed_after_create !! "uuid4" =
                   Some (row_of labelled_request (example_oracle 50 "uuid4")))
    by (vm_compute; reflexivity).
  split; [exact Hrow |].
  exact (post_vms_keeps_rows "dev_secret_key:bob" example_request
           (example_oracle 9 "other") keyed_after_create "uuid4" _ Hrow).
Defined.

Lemma delete_vms_success_witness :
  reachable keyed_after_create ∧
  (delete_vms "dev_secret_key:bob" "uuid4" (example_oracle 9 "other")
     keyed_after_create).1 =
    Ok200 {| VMResponse.id := "uuid4";
             VMResponse.name := "web-1";
             VMResponse.cpu_cores := 4;
             VMResponse.memory := 8192;
             VMResponse.disk_size := 100;
             VMResponse.public_ip := Some "203.0.113.7";
             VMResponse.labels := [];
             VMResponse.status := "deleted";
             VMResponse.created_at := 1730000000;
             VMResponse.updated_at := 1730000000 |}.
Proof.
  pose proof keyed_after_create_reachable as Hw.
  assert (Hu : get_current_user "dev_secret_key:bob" = Return "bob")
    by (vm_compute; reflexivity).
  assert (Hkey : truthy (sdk.api_key (sdk_client keyed_after_create)) = true)
    by (vm_compute; reflexivity).
  assert (Hrow : vms keyed_after_create !! "uuid4" =
                   Some (row_of labelled_request (example_oracle 50 "uuid4")))
    by (vm_compute; reflexivity).
  split; [exact Hw |].
  destruct (delete_vms_success "dev_secret_key:bob" "bob" "uuid4"
              (example_oracle 9 "other") keyed_after_create _
              Hw Hu Hkey eq_refl eq_refl Hrow) as [_ ->].
  reflexivity.
Defined.

Lemma delete_vms_touches_only_vm_id_witness :
  reachable keyed_after_create ∧
  vms (delete_vms "dev_secret_key:bob" "missing" (example_oracle 9 "other")
         keyed_after_create).2 !! "uuid4" =
    vms keyed_after_create !! "uuid4".
Proof.
  pose proof keyed_after_create_reachable as Hw.
  split; [exact Hw |].
  apply (delete_vms_touches_only_vm_id "dev_secret_key:bob" "missing"
           (example_oracle 9 "other") keyed_after_create Hw).
  discriminate.
Defined.

Lemma service_client_key_witness :
  reachable keyed_after_create ∧
  sdk.api_key (sdk_client keyed_after_create) = Some "1234".
Proof.
  pose proof keyed_after_create_reachable as Hw.
  split; [exact Hw |].
  exact (proj1 (service_client_key keyed_after_create Hw)).
Defined.

Lemma service_without_api_key_witness :
  let P := keyed_platform (Some "") in
  let w := step (DeleteVms "dev_secret_key:bob" "uuid4")
             (example_oracle 9 "other")
             (step (PostVms "dev_secret_key:alice" labelled_request)
                (example_oracle 50 "uuid4") initial) in
  truthy (getenv "SDK_API_KEY") = false ∧ reachable w ∧ vms w = ∅.
Proof.
  intros P w.
  assert (Hkey : truthy (getenv "SDK_API_KEY") = false) by reflexivity.
  assert (Hw : reachable w)
    by apply reachable_step, reachable_step, (reachable_initial (P := P)).
  split; [exact Hkey |]. split; [exact Hw |].
  exact (proj1 (proj2 (service_without_api_key w Hkey Hw))).
Defined.

End ServiceRuns.
